(** * Carelink Client Proxy: a shallow embedding of [carelink_client_proxy.py]

    The program polls the Carelink cloud API through an external client
    object, keeps the value of the last download in the module-level variable
    [recentData], and serves it to local clients over HTTP.

    The embedding follows the source file top to bottom:
    - JSON documents and Python dictionaries ([json], [dict]);
    - [get_essential_data] and the request handler [MyServer.do_GET];
    - the main script: login, the endless download loop with its two
      attempts per cycle, and the computation of the waiting time.

    Conventions.  Python [int] is [Z].  [time.time()] returns a binary
    float; every float is a rational number, and the model computes with
    exact rationals [Q] ([int(x)] truncates toward zero).  The two float
    operations of the script, the division of the timestamp by 1000 and the
    subtraction of the clock, are rounded in Python and exact here; the
    results that depend on their values are stated for the range in which
    the rounded and the exact values agree and no float operation or sleep
    overflows ([in_exact_range], [timestamp_in_range]).  The external
    Carelink client and the wall clock are oracles: the [k]-th call of
    [getRecentData] and the clock reading of the [i]-th cycle are inputs. *)

From Stdlib Require Import ZArith List Bool Ascii String Lia.
From Stdlib Require Import QArith.
From Stdlib Require Import DecimalString.
Import ListNotations.

Set Warnings "-register-all".
Open Scope string_scope.
Open Scope Z_scope.

(** ** Python values that the proxy handles *)

Module Py.

(** A JSON document as [json.loads] builds it.  Numbers are integers here:
    the only number the proxy interprets is the millisecond timestamp. *)
Inductive json : Type :=
| JNull
| JBool (b : bool)
| JInt (z : Z)
| JStr (s : string)
| JArr (items : list json)
| JObj (members : list (string * json)).

(** A Python [dict] with string keys, in insertion order (the order in
    which [json.dumps] writes the members). *)
Definition dict := list (string * json).

Definition keys (d : dict) : list string := map fst d.

(** [d[k]], with [None] standing for [KeyError]. *)
Fixpoint dict_get (k : string) (d : dict) : option json :=
  match d with
  | [] => None
  | (k', v) :: rest => if String.eqb k k' then Some v else dict_get k rest
  end.

Definition dict_mem (k : string) (d : dict) : bool :=
  existsb (String.eqb k) (keys d).

(** The dictionary left by a successful [del d[k]]. *)
Definition dict_remove (k : string) (d : dict) : dict :=
  filter (fun kv => negb (String.eqb k (fst kv))) d.

(** [del d[k]]: [KeyError] ([None]) when the key is absent. *)
Definition dict_del (k : string) (d : dict) : option dict :=
  if dict_mem k d then Some (dict_remove k d) else None.

(** [str(z)] for an integer. *)
Definition str_int (z : Z) : string := NilZero.string_of_int (Z.to_int z).

(** [str(x)] for a value that is a string or [None]. *)
Definition str_opt (x : option string) : string :=
  match x with
  | Some s => s
  | None => "None"
  end.

(** [int(x)] on a float: truncation toward zero. *)
Definition py_int (x : Q) : Z := Z.quot (Qnum x) (Z.pos (Qden x)).

(** *** [s.strip(chars)] for a single stripped character *)

Fixpoint lstrip (c : ascii) (s : string) : string :=
  match s with
  | String a rest => if Ascii.eqb a c then lstrip c rest else s
  | EmptyString => EmptyString
  end.

Fixpoint rstrip (c : ascii) (s : string) : string :=
  match s with
  | String a rest =>
      match rstrip c rest with
      | EmptyString => if Ascii.eqb a c then EmptyString else String a EmptyString
      | rest' => String a rest'
      end
  | EmptyString => EmptyString
  end.

Definition strip (c : ascii) (s : string) : string := rstrip c (lstrip c s).

(** *** [json.dumps] with its default settings

    [ensure_ascii] is on: inside a string literal everything outside the
    printable ASCII range is escaped, as are the quote and the backslash.
    Separators are [", "] and [": "]. *)

Definition quote : ascii := ascii_of_nat 34.
Definition backslash : ascii := ascii_of_nat 92.

Definition hex_digit (n : nat) : ascii :=
  if Nat.ltb n 10 then ascii_of_nat (48 + n) else ascii_of_nat (87 + n).

Definition escape_char (a : ascii) : string :=
  let n := nat_of_ascii a in
  if Ascii.eqb a quote then String backslash (String quote EmptyString)
  else if Ascii.eqb a backslash then String backslash (String backslash EmptyString)
  else if Nat.eqb n 8 then String backslash "b"
  else if Nat.eqb n 9 then String backslash "t"
  else if Nat.eqb n 10 then String backslash "n"
  else if Nat.eqb n 12 then String backslash "f"
  else if Nat.eqb n 13 then String backslash "r"
  else if (Nat.leb 32 n && Nat.leb n 126)%bool then String a EmptyString
  else String backslash
         ("u00" ++ String (hex_digit (Nat.div n 16))
                     (String (hex_digit (Nat.modulo n 16)) EmptyString)).

Fixpoint escape (s : string) : string :=
  match s with
  | EmptyString => EmptyString
  | String a rest => escape_char a ++ escape rest
  end.

Definition dumps_str (s : string) : string :=
  String quote (escape s ++ String quote EmptyString).

Fixpoint json_dumps (v : json) : string :=
  match v with
  | JNull => "null"
  | JBool true => "true"
  | JBool false => "false"
  | JInt z => str_int z
  | JStr s => dumps_str s
  | JArr items =>
      "[" ++
      (fix elems (l : list json) : string :=
         match l with
         | [] => ""
         | [x] => json_dumps x
         | x :: rest => json_dumps x ++ ", " ++ elems rest
         end) items
      ++ "]"
  | JObj members =>
      "{" ++
      (fix pairs (l : list (string * json)) : string :=
         match l with
         | [] => ""
         | [(k, x)] => dumps_str k ++ ": " ++ json_dumps x
         | (k, x) :: rest => dumps_str k ++ ": " ++ json_dumps x ++ ", " ++ pairs rest
         end) members
      ++ "}"
  end.

End Py.

Import Py.

(** ** Module-level constants of the script *)

Definition BASEURI : string := "carelink".
Definition OPT_NOHISTORY : string := "nohistory".
Definition UPDATE_INTERVAL : Z := 300.
Definition RETRY_INTERVAL : Z := 120.
Definition VERSION : string := "0.6".

(** [http.HTTPStatus] *)
Module HTTPStatus.
Definition OK : Z := 200.
Definition FORBIDDEN : Z := 403.
Definition NOT_FOUND : Z := 404.
End HTTPStatus.

(** A snapshot is the dictionary that [getRecentData] returned; the variable
    [recentData] holds one, or [None]. *)
Definition snapshot := dict.

(** ** [get_essential_data] *)

(** One [try: del mydata[k] except (KeyError, TypeError): pass] block. *)
Definition try_del (k : string) (mydata : dict) : dict :=
  match dict_del k mydata with
  | Some mydata' => mydata'
  | None => mydata
  end.

(** The function returns the empty string when there is no data, and
    otherwise a copy of the dictionary with four keys deleted. *)
Definition get_essential_data (data : option snapshot) : json :=
  match data with
  | None => JStr ""
  | Some d =>
      let mydata := d in
      let mydata := try_del "sgs" mydata in
      let mydata := try_del "markers" mydata in
      let mydata := try_del "limits" mydata in
      let mydata := try_del "notificationHistory" mydata in
      JObj mydata
  end.

(** ** The request handler [MyServer.do_GET] *)

Record response : Type := mkResponse {
  status_code : Z;
  headers : list (string * string);
  body : string
}.

(** What [json.dumps(recentData)] receives. *)
Definition json_of_store (recentData : option snapshot) : json :=
  match recentData with
  | None => JNull
  | Some d => JObj d
  end.

Definition send (status : Z) (resp : string) : response :=
  {| status_code := status;
     headers := [("Content-type", "application/json");
                 ("Access-Control-Allow-Origin", "*")];
     body := resp |}.

Definition do_GET (recentData : option snapshot) (path : string) : response :=
  let p := strip "/"%char path in
  if String.eqb p BASEURI then
    send HTTPStatus.OK (json_dumps (json_of_store recentData))
  else if String.eqb p (BASEURI ++ "/" ++ OPT_NOHISTORY) then
    send HTTPStatus.OK (json_dumps (get_essential_data recentData))
  else
    send HTTPStatus.NOT_FOUND "".

(** ** The external collaborators

    The Carelink client is an opaque object.  One call of [getRecentData]
    either raises, or returns a value and leaves behind what the three
    accessors will answer until the next call. *)

Record fetch_outcome : Type := mkOutcome {
  recent : option snapshot;              (* the value getRecentData returned *)
  getLastResponseCode : Z;
  getLastDataSuccess : bool;
  getLastErrorMessage : option string
}.

Inductive fetch_result : Type :=
| Returned (o : fetch_outcome)
| Raised (msg : string).

Record login_outcome : Type := mkLogin {
  logged_in : bool;                      (* the value login() returned *)
  login_code : Z;
  login_error : option string
}.

(** ** Exceptions, effects and the state of the process *)

Inductive exn : Type :=
| KeyError (key : string)
| TypeError (msg : string)
| ClientError (msg : string).

Definition str_exn (e : exn) : string :=
  match e with
  | KeyError k => "'" ++ k ++ "'"
  | TypeError m => m
  | ClientError m => m
  end.

Inductive priority : Type := LOG_NOTICE | LOG_ERR.

(** What the process does to the outside world, in program order.  An
    [EDebug] event is a call of [log.debug], shown or not. *)
Inductive event : Type :=
| EStartWebserver
| ELogin
| EGetRecentData
| EDebug (msg : string)
| EPrint (msg : string)
| ESyslog (p : priority) (msg : string)
| ESleep (seconds : Z).

Record world : Type := mkWorld {
  recentData : option snapshot;          (* the module-level variable *)
  fetches : nat;                         (* calls of getRecentData so far *)
  out : list event
}.

Definition initial : world :=
  {| recentData := None; fetches := 0; out := [] |}.

(** A statement either completes with a value or raises; in both cases the
    changes it made to the world stay. *)
Definition M (A : Type) : Type := world -> (exn + A) * world.

Definition ret {A} (a : A) : M A := fun w => (inr a, w).

Definition bind {A B} (m : M A) (k : A -> M B) : M B :=
  fun w =>
    match m w with
    | (inr a, w') => k a w'
    | (inl e, w') => (inl e, w')
    end.

Definition try_except {A} (m : M A) (handler : exn -> M A) : M A :=
  fun w =>
    match m w with
    | (inl e, w') => handler e w'
    | done => done
    end.

Definition lift {A} (r : exn + A) : M A := fun w => (r, w).

Definition emit (e : event) : M unit :=
  fun w => (inr tt, {| recentData := recentData w;
                       fetches := fetches w;
                       out := out w ++ [e] |}).

Definition assign_recentData (v : option snapshot) : M unit :=
  fun w => (inr tt, {| recentData := v; fetches := fetches w; out := out w |}).

Definition read_recentData : M (option snapshot) :=
  fun w => (inr (recentData w), w).

Declare Scope py_scope.
Delimit Scope py_scope with py.
Notation "x <- m ;; k" := (bind m (fun x => k))
  (at level 61, m at next level, right associativity) : py_scope.
Notation "m ;; k" := (bind m (fun _ => k))
  (at level 61, right associativity) : py_scope.
Open Scope py_scope.

Definition log_debug (msg : string) : M unit := emit (EDebug msg).
Definition print (msg : string) : M unit := emit (EPrint msg).
Definition syslog (p : priority) (msg : string) : M unit := emit (ESyslog p msg).
Definition time_sleep (seconds : Z) : M unit := emit (ESleep seconds).

(** ** The main script *)

Section Script.

Variable login_result : login_outcome.   (* what client.login() does *)
Variable client : nat -> fetch_result.   (* the k-th getRecentData call *)
Variable clock : nat -> Q.               (* time.time() in cycle i *)
Variable wait : Z.                       (* --wait, or UPDATE_INTERVAL *)

Definition getRecentData : M fetch_outcome :=
  fun w =>
    let w' := {| recentData := recentData w;
                 fetches := S (fetches w);
                 out := out w ++ [EGetRecentData] |} in
    match client (fetches w) with
    | Returned o => (inr o, w')
    | Raised msg => (inl (ClientError msg), w')
    end.

(** The argument of [print] in the data-error branch: the conditional
    expression binds weaker than [+]. *)
Definition data_error_text (msg : option string) : string :=
  match msg with
  | None => "Data exception: " ++ "no details available"
  | Some m => m
  end.

(** [for j in range(n)]: the loop body, with [break] as the branch that
    does not recurse. *)
Fixpoint attempts (n : nat) : M unit :=
  match n with
  | O => ret tt
  | S n' =>
      o <- getRecentData ;;
      assign_recentData (recent o) ;;
      if getLastResponseCode o =? HTTPStatus.OK then
        if getLastDataSuccess o then log_debug "New data received"
        else print (data_error_text (getLastErrorMessage o))
      else if getLastResponseCode o =? HTTPStatus.FORBIDDEN then
        print "GetRecentData login error (status code FORBIDDEN). Trying again in 1 sec" ;;
        time_sleep 1 ;;
        attempts n'
      else
        print ("Error, response code: " ++ str_int (getLastResponseCode o)
               ++ " Trying again in 1 sec") ;;
        time_sleep 1 ;;
        attempts n'
  end.

(** The [try] statement around the [for] loop. *)
Definition download : M unit :=
  try_except (attempts 2)
    (fun e => print (str_exn e) ;; syslog LOG_ERR ("ERROR: " ++ str_exn e)).

(** [recentData["lastConduitUpdateServerTime"]/1000] *)
Definition update_time_seconds (d : snapshot) : exn + Q :=
  match dict_get "lastConduitUpdateServerTime" d with
  | None => inl (KeyError "lastConduitUpdateServerTime")
  | Some (JInt t) => inr (inject_Z t / 1000)%Q
  | Some (JBool b) => inr (inject_Z (Z.b2z b) / 1000)%Q
  | Some _ => inl (TypeError "unsupported operand type(s) for /")
  end.

(** The value of [tmoSeconds] when the [if] statement is left. *)
Definition tmoSeconds (rd : option snapshot) (now : Q) : exn + Z :=
  match rd with
  | Some d =>
      match update_time_seconds d with
      | inl e => inl e
      | inr q =>
          let nextReading := py_int q + wait in
          let tmo := py_int (inject_Z nextReading - now) in
          inr (if tmo <? 0 then RETRY_INTERVAL else tmo)
      end
  | None => inr RETRY_INTERVAL
  end.

Definition schedule (i : nat) : M unit :=
  rd <- read_recentData ;;
  tmo <- lift (tmoSeconds rd (clock i)) ;;
  log_debug ("Waiting " ++ str_int tmo ++ " seconds before next download!") ;;
  time_sleep (tmo + 10).

(** One pass through the body of [while True], [i] already incremented. *)
Definition cycle (i : nat) : M unit :=
  log_debug ("Starting download " ++ str_int (Z.of_nat i)) ;;
  download ;;
  schedule i.

(** [fuel] passes through the endless loop, starting after cycle [i]. *)
Fixpoint loop (fuel : nat) (i : nat) : M unit :=
  match fuel with
  | O => ret tt
  | S fuel' => cycle (S i) ;; loop fuel' (S i)
  end.

Inductive run_state : Type :=
| Looping      (* still inside [while True] *)
| Finished.    (* the script reached its last line *)

Definition login_error_text : string :=
  "Client login error! Response code: " ++ str_int (login_code login_result)
  ++ " Error message: " ++ str_opt (login_error login_result).

Definition main (fuel : nat) : M run_state :=
  syslog LOG_NOTICE ("Starting Carelink Client Proxy (version " ++ VERSION ++ ")") ;;
  emit EStartWebserver ;;
  log_debug "Client created!" ;;
  emit ELogin ;;
  if logged_in login_result then
    loop fuel 0 ;; ret Looping
  else
    print login_error_text ;;
    syslog LOG_ERR login_error_text ;;
    syslog LOG_ERR "Emergency exit" ;;
    ret Finished.

End Script.

(** * Vocabulary of the properties *)

(** ** The lite view *)

Definition reserved_keys : list string :=
  ["sgs"; "markers"; "limits"; "notificationHistory"].

Definition is_reserved (k : string) : bool :=
  existsb (String.eqb k) reserved_keys.

(** The dictionary without its reserved keys, everything else in place. *)
Definition without_reserved (d : dict) : dict :=
  filter (fun kv => negb (is_reserved (fst kv))) d.


(** ** Runs of the script *)

(** The world a statement leaves behind, whether it raised or not. *)
Definition after {A} (m : M A) (w : world) : world := snd (m w).

(** A statement preserves [P] when [P] survives it, raised or not. *)
Definition preserves {A} (P : world -> Prop) (m : M A) : Prop :=
  forall w, P w -> P (after m w).

Definition is_ok (o : fetch_outcome) : bool :=
  getLastResponseCode o =? HTTPStatus.OK.

(** What an attempt with status OK reports before it leaves the loop. *)
Definition ok_note (o : fetch_outcome) : event :=
  if getLastDataSuccess o then EDebug "New data received"
  else EPrint (data_error_text (getLastErrorMessage o)).

(** What an attempt with another status prints before it waits. *)
Definition retry_note (o : fetch_outcome) : event :=
  if getLastResponseCode o =? HTTPStatus.FORBIDDEN then
    EPrint "GetRecentData login error (status code FORBIDDEN). Trying again in 1 sec"
  else
    EPrint ("Error, response code: " ++ str_int (getLastResponseCode o)
            ++ " Trying again in 1 sec").

(** What the [except] clause writes. *)
Definition except_notes (msg : string) : list event :=
  [EPrint msg; ESyslog LOG_ERR ("ERROR: " ++ msg)].

Definition starting_text (i : nat) : string :=
  "Starting download " ++ str_int (Z.of_nat i).

Definition waiting_text (tmo : Z) : string :=
  "Waiting " ++ str_int tmo ++ " seconds before next download!".

Definition is_fetch (e : event) : bool :=
  match e with EGetRecentData => true | _ => false end.

Definition is_login (e : event) : bool :=
  match e with ELogin => true | _ => false end.

Definition count (p : event -> bool) (tr : list event) : nat :=
  List.length (filter p tr).

(** Everything the script does up to and including the call of [login]. *)
Definition startup_events : list event :=
  [ESyslog LOG_NOTICE "Starting Carelink Client Proxy (version 0.6)";
   EStartWebserver; EDebug "Client created!"; ELogin].

Definition started : world :=
  {| recentData := None; fetches := 0; out := startup_events |}.

(** The events after [prefix] contain no login. *)
Definition login_free_since (prefix : list event) (w : world) : Prop :=
  exists rest, out w = (prefix ++ rest)%list /\ count is_login rest = 0%nat.

(** ** The range of the float arithmetic

    In the source [T/1000] and [nextReading - time.time()] are binary64
    operations; the embedding computes them exactly.  A clock reading is a
    binary64 number [n / 2^k] with [n < 2^53].  The two computations agree
    when
    - [0 <= T < 2^44 * 1000]: the quotient is below [2^44], where the
      rounding error of a binary64 is at most [2^-10], less than the
      distance [1/1000] of the quotient to the next integer, so [int]
      gives the floor;
    - [nextReading = floor(T/1000) + wait] is not negative and
      [nextReading * 2^k < 2^53]: the difference of [nextReading] and the
      clock is a multiple of [2^-k] below [2^53 * 2^-k], hence a binary64
      number, and the subtraction is exact;
    - [nextReading < 2^33], so that [time.sleep] accepts the waiting time
      plus ten seconds. *)

Definition clock_reading (n : Z) (k : N) : Q := n # Pos.shiftl 1 k.

Definition in_exact_range (T wait n : Z) (k : N) : Prop :=
  0 <= T < 2 ^ 44 * 1000 /\
  0 <= T / 1000 + wait < 2 ^ 33 /\
  0 <= n < 2 ^ 53 /\
  (T / 1000 + wait) * 2 ^ Z.of_N k < 2 ^ 53 /\
  (k <= 52)%N.

(** A stored value whose timestamp no float operation and no sleep of the
    scheduling code can choke on: nothing, or a dictionary whose
    [lastConduitUpdateServerTime] is a boolean or an integer [T] with
    [0 <= T < 2^44 * 1000], next reading time within [2^33] seconds of the
    epoch. *)
Definition timestamp_in_range (wait : Z) (rd : option snapshot) : bool :=
  match rd with
  | None => true
  | Some d =>
      match dict_get "lastConduitUpdateServerTime" d with
      | Some (JInt t) =>
          (0 <=? t) && (t <? 2 ^ 44 * 1000)
          && (- 2 ^ 33 <? t / 1000 + wait) && (t / 1000 + wait <? 2 ^ 33)
      | Some (JBool _) => (- 2 ^ 33 <? wait) && (wait <? 2 ^ 33)
      | _ => false
      end
  end.

Section Expected.

Variable client : nat -> fetch_result.
Variable clock : nat -> Q.
Variable wait : Z.

(** The value returned by the latest of the first [k] calls of
    [getRecentData] that returned at all. *)
Fixpoint last_returned (k : nat) : option snapshot :=
  match k with
  | O => None
  | S k' =>
      match client k' with
      | Returned o => recent o
      | Raised _ => last_returned k'
      end
  end.

(** The stored value is what the latest returning call returned. *)
Definition consistent (w : world) : Prop :=
  recentData w = last_returned (fetches w).

(** The events of the second attempt of a cycle, call number [k]. *)
Definition second_attempt_events (k : nat) : list event :=
  match client k with
  | Raised msg => EGetRecentData :: except_notes msg
  | Returned o =>
      if is_ok o then [EGetRecentData; ok_note o]
      else [EGetRecentData; retry_note o; ESleep 1]
  end.

(** The events of the two-attempt loop and its [except] clause, read off
    the answers of the client to the calls [k] and [k + 1]. *)
Definition download_events (k : nat) : list event :=
  match client k with
  | Raised msg => EGetRecentData :: except_notes msg
  | Returned o =>
      if is_ok o then [EGetRecentData; ok_note o]
      else [EGetRecentData; retry_note o; ESleep 1]
           ++ second_attempt_events (S k)
  end.

(** The script from [if client.login()] on. *)
Definition after_login (lr : login_outcome) (fuel : nat) : M run_state :=
  if logged_in lr then
    loop client clock wait fuel 0 ;; ret Looping
  else
    print (login_error_text lr) ;;
    syslog LOG_ERR (login_error_text lr) ;;
    syslog LOG_ERR "Emergency exit" ;;
    ret Finished.

End Expected.

(** ** Concrete runs *)

(** The snapshot of the specification's scheduling example. *)
Definition example_snapshot : snapshot :=
  [("sgs", JArr [JInt 110; JInt 114]);
   ("markers", JArr []);
   ("lastConduitUpdateServerTime", JInt 1000000)].

Definition fresh : fetch_outcome :=
  {| recent := Some example_snapshot; getLastResponseCode := 200;
     getLastDataSuccess := true; getLastErrorMessage := None |}.

Definition forbidden : fetch_outcome :=
  {| recent := None; getLastResponseCode := 403;
     getLastDataSuccess := false; getLastErrorMessage := Some "Forbidden" |}.

Definition server_error : fetch_outcome :=
  {| recent := None; getLastResponseCode := 500;
     getLastDataSuccess := false;
     getLastErrorMessage := Some "Internal Server Error" |}.

(** A client whose first download succeeds and whose later ones are
    rejected. *)
Definition rejected_later (k : nat) : fetch_result :=
  match k with
  | O => Returned fresh
  | _ => Returned forbidden
  end.

(** A client whose first download succeeds and whose later ones fail on the
    server. *)
Definition failing_later (k : nat) : fetch_result :=
  match k with
  | O => Returned fresh
  | _ => Returned server_error
  end.

(** A client that never gets an answer from the server. *)
Definition always_failing (k : nat) : fetch_result := Returned server_error.

(** A client whose calls raise. *)
Definition unreachable (k : nat) : fetch_result := Raised "Connection refused".

Definition login_accepted : login_outcome :=
  {| logged_in := true; login_code := 200; login_error := None |}.


(** The clock of the specification's example. *)
Definition example_clock (i : nat) : Q := 1000300.

(** A snapshot stamped 1700000000000 ms and a clock half a second past the
    next reading time at an interval of 300 seconds. *)
Definition stamped_snapshot : snapshot :=
  [("lastConduitUpdateServerTime", JInt 1700000000000)].

Definition half_past : Q := 3400000601 # 2.

(** ** Vocabulary of the further properties *)

(** A sleeping time the script can ask for: one second between attempts, or
    at least the ten seconds added to every waiting time. *)
Definition sleep_ok (e : event) : Prop :=
  match e with
  | ESleep s => s = 1 \/ 10 <= s
  | _ => True
  end.

Definition sleeps_ok (w : world) : Prop := Forall sleep_ok (out w).

(** A stored value from which the waiting time can be computed: nothing, or
    a dictionary whose [lastConduitUpdateServerTime] is a number. *)
Definition has_timestamp (rd : option snapshot) : bool :=
  match rd with
  | None => true
  | Some d =>
      match dict_get "lastConduitUpdateServerTime" d with
      | Some (JInt _) | Some (JBool _) => true
      | _ => false
      end
  end.

(** The exceptions of the scheduling code, which no [try] surrounds, as far
    as the embedding has them: the overflow errors of out-of-range floats
    and sleeping times are outside [in_exact_range] and
    [timestamp_in_range]. *)
Definition is_scheduling_error (e : exn) : Prop :=
  match e with
  | KeyError k => k = "lastConduitUpdateServerTime"
  | TypeError _ => True
  | ClientError _ => False
  end.

(** A download that succeeds with a document that has no timestamp. *)
Definition untimed_snapshot : snapshot := [("sgs", JArr [JInt 110])].

Definition untimed : fetch_outcome :=
  {| recent := Some untimed_snapshot; getLastResponseCode := 200;
     getLastDataSuccess := true; getLastErrorMessage := None |}.

Definition always_untimed (k : nat) : fetch_result := Returned untimed.

(** A snapshot without any of the reserved keys. *)
Definition plain_snapshot : snapshot :=
  [("lastSG", JObj [("sg", JInt 120)]);
   ("lastConduitUpdateServerTime", JInt 1000000)].

(** * Properties *)

(** ** Dictionaries *)

Lemma dict_remove_absent k d :
  dict_mem k d = false -> dict_remove k d = d.
Proof.
  unfold dict_mem, dict_remove, keys.
  induction d as [|[k' v] d IH]; simpl; intros H; [reflexivity|].
  apply orb_false_iff in H as [Hk Hd].
  rewrite Hk; simpl. now rewrite IH.
Qed.

Lemma try_del_remove k d : try_del k d = dict_remove k d.
Proof.
  unfold try_del, dict_del.
  destruct (dict_mem k d) eqn:E; [reflexivity|].
  symmetry. now apply dict_remove_absent.
Qed.

Lemma filter_twice {A} (f g : A -> bool) (l : list A) :
  filter g (filter f l) = filter (fun x => f x && g x)%bool l.
Proof.
  induction l as [|x l IH]; [reflexivity|].
  cbn [filter]. destruct (f x); cbn [filter andb]; [|exact IH].
  destruct (g x); now rewrite IH.
Qed.

Lemma not_reserved_spec k :
  negb (is_reserved k) =
  (negb (String.eqb "sgs" k) && negb (String.eqb "markers" k)
   && negb (String.eqb "limits" k)
   && negb (String.eqb "notificationHistory" k))%bool.
Proof.
  unfold is_reserved, reserved_keys. cbn [existsb].
  rewrite !(String.eqb_sym k).
  destruct (String.eqb "sgs" k), (String.eqb "markers" k),
    (String.eqb "limits" k), (String.eqb "notificationHistory" k);
    reflexivity.
Qed.

Lemma get_essential_data_filter d :
  get_essential_data (Some d) = JObj (without_reserved d).
Proof.
  unfold get_essential_data, without_reserved.
  rewrite !try_del_remove. f_equal.
  unfold dict_remove. rewrite !filter_twice.
  apply filter_ext. intros kv.
  now rewrite not_reserved_spec, !andb_assoc.
Qed.

Lemma dict_get_filter (keep : string -> bool) k d :
  dict_get k (filter (fun kv => keep (fst kv)) d) =
  if keep k then dict_get k d else None.
Proof.
  induction d as [|[k' v] d IH]; cbn [filter dict_get fst].
  - now destruct (keep k).
  - destruct (String.eqb k k') eqn:E.
    + apply String.eqb_eq in E; subst k'.
      destruct (keep k) eqn:Hk; cbn [dict_get].
      * now rewrite String.eqb_refl.
      * exact IH.
    + destruct (keep k') eqn:Hk'; cbn [dict_get]; [rewrite E|]; exact IH.
Qed.

(** Deleting a key keeps the keys of a dictionary distinct. *)
Lemma dict_remove_keys k d :
  NoDup (keys d) -> NoDup (keys (dict_remove k d)).
Proof.
  unfold keys, dict_remove.
  induction d as [|[k' v] d IH]; simpl; intros H; [constructor|].
  inversion H as [|? ? Hnotin Hd]; subst.
  destruct (String.eqb k k'); simpl; [now apply IH|].
  constructor; [|now apply IH].
  intros Hin. apply Hnotin.
  apply in_map_iff in Hin as [[k2 v2] [Hk Hin]].
  apply filter_In in Hin as [Hin _].
  apply in_map_iff. now exists (k2, v2).
Qed.

(** ** The HTTP handler *)

Lemma do_GET_base rd path :
  strip "/" path = BASEURI ->
  do_GET rd path = send HTTPStatus.OK (json_dumps (json_of_store rd)).
Proof. unfold do_GET. intros ->. reflexivity. Qed.

Lemma do_GET_nohistory rd path :
  strip "/" path = BASEURI ++ "/" ++ OPT_NOHISTORY ->
  do_GET rd path = send HTTPStatus.OK (json_dumps (get_essential_data rd)).
Proof. unfold do_GET. intros ->. reflexivity. Qed.


(** C3: for every dictionary held in [recentData], the body served at
    [/carelink/nohistory] is the serialization of the dictionary served at
    [/carelink] with exactly the keys [sgs], [markers], [limits] and
    [notificationHistory] taken out: a reserved key is absent from the lite
    view, every other key keeps its value, the members of the lite view are
    the members of the original whose key is not reserved, and deleting a key
    that is absent changes nothing. *)
Theorem nohistory_is_full_minus_reserved (d : snapshot) :
  let full := do_GET (Some d) "/carelink" in
  let lite := do_GET (Some d) "/carelink/nohistory" in
  status_code full = 200 /\ body full = json_dumps (JObj d) /\
  status_code lite = 200 /\ body lite = json_dumps (JObj (without_reserved d)) /\
  (forall k, dict_get k (without_reserved d) =
             if is_reserved k then None else dict_get k d) /\
  (forall k v, In (k, v) (without_reserved d) <->
               In (k, v) d /\ is_reserved k = false) /\
  (forall k, dict_mem k d = false -> try_del k d = d).
Proof.
  cbv zeta.
  rewrite (do_GET_base (Some d) "/carelink") by reflexivity.
  rewrite (do_GET_nohistory (Some d) "/carelink/nohistory") by reflexivity.
  rewrite get_essential_data_filter. unfold without_reserved.
  cbn [send status_code body].
  split; [reflexivity|]. split; [reflexivity|].
  split; [reflexivity|]. split; [reflexivity|].
  split; [|split].
  - intros k.
    rewrite (dict_get_filter (fun k => negb (is_reserved k))).
    now destruct (is_reserved k).
  - intros k v. rewrite filter_In. cbn [fst].
    rewrite negb_true_iff. tauto.
  - intros k H. rewrite try_del_remove. now apply dict_remove_absent.
Qed.

(** C4: while [recentData] is still [None], both resources answer with
    status 200; the body is [null] at [/carelink] and the empty JSON string
    (two quote characters) at [/carelink/nohistory]. *)
Theorem empty_store_is_served_with_200 :
  let full := do_GET None "/carelink" in
  let lite := do_GET None "/carelink/nohistory" in
  status_code full = 200 /\ body full = "null" /\
  status_code lite = 200 /\ body lite = String quote (String quote "") /\
  do_GET None "/carelink/" = full.
Proof. repeat split. Qed.



(** ** The monad *)

Lemma preserves_ret {A} P (a : A) : preserves P (ret a).
Proof. now intros w H. Qed.

Lemma preserves_lift {A} P (r : exn + A) : preserves P (lift r).
Proof. now intros w H. Qed.

Lemma preserves_read P : preserves P read_recentData.
Proof. now intros w H. Qed.

Lemma preserves_bind {A B} P (m : M A) (k : A -> M B) :
  preserves P m -> (forall a, preserves P (k a)) -> preserves P (bind m k).
Proof.
  intros Hm Hk w H. specialize (Hm w H).
  unfold after, bind in *. destruct (m w) as [[e|a] w1]; cbn [snd] in *.
  - exact Hm.
  - now apply Hk.
Qed.

Lemma preserves_try {A} P (m : M A) (h : exn -> M A) :
  preserves P m -> (forall e, preserves P (h e)) ->
  preserves P (try_except m h).
Proof.
  intros Hm Hh w H. specialize (Hm w H).
  unfold after, try_except in *. destruct (m w) as [[e|a] w1]; cbn [snd] in *.
  - now apply Hh.
  - exact Hm.
Qed.

(** ** Python arithmetic *)

Lemma quot_negative n d : 0 < d -> (Z.quot n d < 0 <-> n <= - d).
Proof.
  intros Hd. Zify.zify. Z.to_euclidean_division_equations. nia.
Qed.

Lemma py_int_negative (x : Q) : py_int x < 0 <-> (x <= -1)%Q.
Proof.
  unfold py_int, Qle. cbn [Qnum Qden]. rewrite quot_negative by lia. lia.
Qed.

Lemma py_int_integer (z : Z) : py_int (inject_Z z) = z.
Proof. unfold py_int. cbn [inject_Z Qnum Qden]. apply Z.quot_1_r. Qed.

Lemma py_int_difference (a b : Z) : py_int (inject_Z a - inject_Z b) = a - b.
Proof.
  unfold py_int. cbn [inject_Z Qminus Qplus Qopp Qnum Qden Pos.mul].
  rewrite Z.quot_1_r. lia.
Qed.

Lemma py_int_milliseconds (t : Z) :
  0 <= t -> py_int (inject_Z t / 1000) = t / 1000.
Proof.
  intros H. unfold py_int.
  change (Qnum (inject_Z t / 1000)) with (t * 1).
  change (Qden (inject_Z t / 1000)) with 1000%positive.
  rewrite Z.mul_1_r. apply Z.quot_div_nonneg; lia.
Qed.

(** ** The poller *)

Section Poller.

Variable client : nat -> fetch_result.
Variable clock : nat -> Q.
Variable wait : Z.

(** *** One pass of the download loop *)

Lemma attempts_raised n w msg :
  client (fetches w) = Raised msg ->
  attempts client (S n) w =
  (inl (ClientError msg),
   {| recentData := recentData w; fetches := S (fetches w);
      out := out w ++ [EGetRecentData] |}).
Proof.
  intros H. cbn [attempts]. unfold bind at 1, getRecentData.
  now rewrite H.
Qed.

Lemma attempts_ok n w o :
  client (fetches w) = Returned o -> is_ok o = true ->
  attempts client (S n) w =
  (inr tt,
   {| recentData := recent o; fetches := S (fetches w);
      out := out w ++ [EGetRecentData; ok_note o] |}).
Proof.
  unfold is_ok. intros H Hok. cbn [attempts].
  unfold bind at 1, getRecentData. rewrite H.
  unfold bind, assign_recentData. rewrite Hok. unfold ok_note.
  destruct (getLastDataSuccess o); unfold log_debug, print, emit;
    cbn [recentData fetches out]; now rewrite <- app_assoc.
Qed.

Lemma attempts_retry n w o :
  client (fetches w) = Returned o -> is_ok o = false ->
  attempts client (S n) w =
  attempts client n
    {| recentData := recent o; fetches := S (fetches w);
       out := out w ++ [EGetRecentData; retry_note o; ESleep 1] |}.
Proof.
  unfold is_ok. intros H Hok. cbn [attempts].
  unfold bind at 1, getRecentData. rewrite H.
  unfold bind at 1, assign_recentData. rewrite Hok. unfold retry_note.
  destruct (getLastResponseCode o =? HTTPStatus.FORBIDDEN);
    unfold bind, print, time_sleep, emit;
    cbn [recentData fetches out]; now rewrite <- !app_assoc.
Qed.

(** A loop of [n] passes makes at most [n] calls. *)
Lemma attempts_fetch_bound n w :
  (fetches w <= fetches (after (attempts client n) w) <= fetches w + n)%nat.
Proof.
  revert w. induction n as [|n IH]; intros w; [cbn; lia|].
  unfold after.
  destruct (client (fetches w)) as [o|msg] eqn:E.
  - destruct (is_ok o) eqn:Hok.
    + rewrite (attempts_ok n w o E Hok). cbn. lia.
    + rewrite (attempts_retry n w o E Hok).
      match goal with |- context [attempts client n ?w1] =>
        specialize (IH w1) end.
      unfold after in IH. cbn [fetches] in IH. lia.
  - rewrite (attempts_raised n w msg E). cbn. lia.
Qed.

(** The whole [try] statement, by the answers to the next two calls. *)
Lemma download_eq w :
  download client w =
  (inr tt,
   match client (fetches w) with
   | Raised msg =>
       {| recentData := recentData w; fetches := S (fetches w);
          out := out w ++ download_events client (fetches w) |}
   | Returned o =>
       if is_ok o then
         {| recentData := recent o; fetches := S (fetches w);
            out := out w ++ download_events client (fetches w) |}
       else
         {| recentData := match client (S (fetches w)) with
                          | Returned o2 => recent o2
                          | Raised _ => recent o
                          end;
            fetches := S (S (fetches w));
            out := out w ++ download_events client (fetches w) |}
   end).
Proof.
  unfold download, try_except, download_events.
  destruct (client (fetches w)) as [o|msg] eqn:E.
  - destruct (is_ok o) eqn:Hok.
    + now rewrite (attempts_ok 1 w o E Hok).
    + rewrite (attempts_retry 1 w o E Hok).
      unfold second_attempt_events.
      destruct (client (S (fetches w))) as [o2|msg2] eqn:E2.
      * destruct (is_ok o2) eqn:Hok2.
        -- match goal with |- context [attempts client _ ?w1] =>
             rewrite (attempts_ok 0 w1 o2 E2 Hok2) end.
           cbn [recentData fetches out]. now rewrite <- app_assoc.
        -- match goal with |- context [attempts client _ ?w1] =>
             rewrite (attempts_retry 0 w1 o2 E2 Hok2) end.
           cbn [attempts ret recentData fetches out].
           now rewrite <- app_assoc.
      * match goal with |- context [attempts client _ ?w1] =>
          rewrite (attempts_raised 0 w1 msg2 E2) end.
        unfold bind, print, syslog, emit, except_notes, str_exn.
        cbn [recentData fetches out]. now rewrite <- !app_assoc.
  - rewrite (attempts_raised 1 w msg E).
    unfold bind, print, syslog, emit, except_notes, str_exn.
    cbn [recentData fetches out]. now rewrite <- !app_assoc.
Qed.

Lemma download_returns w : fst (download client w) = inr tt.
Proof. now rewrite download_eq. Qed.

Lemma download_events_fetches k :
  (1 <= count is_fetch (download_events client k) <= 2)%nat /\
  count is_fetch (download_events client k) =
  match client k with
  | Raised _ => 1%nat
  | Returned o => if is_ok o then 1%nat else 2%nat
  end.
Proof.
  unfold download_events, second_attempt_events, except_notes.
  destruct (client k) as [o|msg]; [|cbn; lia].
  destruct (is_ok o); [unfold ok_note;
    destruct (getLastDataSuccess o); cbn; lia|].
  destruct (client (S k)) as [o2|msg2].
  - unfold retry_note, ok_note.
    destruct (getLastResponseCode o =? HTTPStatus.FORBIDDEN),
      (is_ok o2), (getLastDataSuccess o2),
      (getLastResponseCode o2 =? HTTPStatus.FORBIDDEN); cbn; lia.
  - unfold retry_note.
    destruct (getLastResponseCode o =? HTTPStatus.FORBIDDEN); cbn; lia.
Qed.

(** C6: in every cycle the download loop calls [getRecentData] at most
    twice.  Its events are those of [download_events]: an attempt that
    answers with a status other than OK (forbidden or anything else) prints
    its message and sleeps one second, after which the second attempt is
    made if this was the first, and none if it was the second; an attempt
    that answers OK, with data marked successful or not, is the last of the
    cycle. *)
Theorem at_most_two_attempts_per_cycle (w : world) :
  let w' := after (download client) w in
  let events := download_events client (fetches w) in
  out w' = (out w ++ events)%list /\
  fetches w' = (fetches w + count is_fetch events)%nat /\
  (1 <= count is_fetch events <= 2)%nat /\
  (forall n, fetches (after (attempts client n) w) <= fetches w + n)%nat.
Proof.
  cbv zeta.
  destruct (download_events_fetches (fetches w)) as [Hb Hc].
  unfold after. rewrite download_eq. cbn [snd].
  split; [|split; [|split]].
  - destruct (client (fetches w)) as [o|msg]; [|reflexivity].
    now destruct (is_ok o).
  - rewrite Hc. destruct (client (fetches w)) as [o|msg]; [|cbn; lia].
    destruct (is_ok o); cbn; lia.
  - exact Hb.
  - intros n. apply attempts_fetch_bound.
Qed.

(** *** Scheduling *)

Lemma schedule_sleeps i w tmo :
  tmoSeconds wait (recentData w) (clock i) = inr tmo ->
  schedule clock wait i w =
  (inr tt,
   {| recentData := recentData w; fetches := fetches w;
      out := out w ++ [EDebug (waiting_text tmo); ESleep (tmo + 10)] |}).
Proof.
  intros H. unfold schedule, bind, read_recentData, lift.
  rewrite H. unfold log_debug, time_sleep, emit.
  cbn [recentData fetches out]. now rewrite <- app_assoc.
Qed.

(** When the waiting time cannot be computed the exception leaves the
    script: nothing is logged and the process does not sleep. *)
Lemma schedule_raises i w e :
  tmoSeconds wait (recentData w) (clock i) = inl e ->
  schedule clock wait i w = (inl e, w).
Proof.
  intros H. unfold schedule, bind, read_recentData, lift. now rewrite H.
Qed.

Lemma cycle_eq i w :
  cycle client clock wait i w =
  schedule clock wait i
    (after (download client) (after (log_debug (starting_text i)) w)).
Proof.
  unfold cycle, after, bind, starting_text.
  cbn [log_debug emit snd].
  match goal with |- context [download client ?w1] =>
    pose proof (download_returns w1) as H;
    destruct (download client w1) as [r w2] end.
  cbn [fst] in H. subst r. reflexivity.
Qed.


(** C5 (amended): when both attempts of a cycle return with a status other
    than OK, [recentData] holds the value returned by the second attempt;
    when that value is [None] the cycle waits the retry interval of 120
    seconds, sleeping 130. *)
Theorem exhausted_cycle_stores_last_answer
  (i : nat) (w : world) (o1 o2 : fetch_outcome) :
  client (fetches w) = Returned o1 ->
  getLastResponseCode o1 <> HTTPStatus.OK ->
  client (S (fetches w)) = Returned o2 ->
  getLastResponseCode o2 <> HTTPStatus.OK ->
  recentData (after (download client) w) = recent o2 /\
  (recent o2 = None ->
   cycle client clock wait i w =
   (inr tt,
    {| recentData := None; fetches := S (S (fetches w));
       out := out w ++
              [EDebug (starting_text i);
               EGetRecentData; retry_note o1; ESleep 1;
               EGetRecentData; retry_note o2; ESleep 1;
               EDebug (waiting_text RETRY_INTERVAL); ESleep 130] |})).
Proof.
  intros E1 H1 E2 H2.
  apply Z.eqb_neq in H1, H2.
  assert (D : forall w0, fetches w0 = fetches w ->
    after (download client) w0 =
    {| recentData := recent o2; fetches := S (S (fetches w));
       out := out w0 ++ [EGetRecentData; retry_note o1; ESleep 1;
                         EGetRecentData; retry_note o2; ESleep 1] |}).
  { intros w0 Hw0. unfold after. rewrite download_eq. cbn [snd].
    unfold download_events, second_attempt_events.
    rewrite Hw0, E1, E2. unfold is_ok. now rewrite H1, H2. }
  split.
  - now rewrite (D w eq_refl).
  - intros Hnone. rewrite cycle_eq.
    rewrite D by reflexivity.
    rewrite (schedule_sleeps i _ RETRY_INTERVAL).
    + cbn [recentData fetches out after log_debug emit snd].
      rewrite Hnone, <- !app_assoc. reflexivity.
    + cbn [recentData]. now rewrite Hnone.
Qed.

(** *** Invariants of the endless loop *)

Lemma consistent_emit e : preserves (consistent client) (emit e).
Proof. now intros w H. Qed.

Lemma consistent_download : preserves (consistent client) (download client).
Proof.
  intros w H. unfold consistent, after in *. rewrite download_eq. cbn [snd].
  destruct (client (fetches w)) as [o|msg] eqn:E.
  - destruct (is_ok o); cbn [recentData fetches last_returned].
    + now rewrite E.
    + destruct (client (S (fetches w))); [reflexivity|].
      cbn [last_returned]. now rewrite E.
  - cbn [recentData fetches last_returned]. now rewrite E.
Qed.

Lemma login_free_emit prefix e :
  is_login e = false -> preserves (login_free_since prefix) (emit e).
Proof.
  intros He w [rest [H1 H2]]. exists (rest ++ [e])%list.
  unfold after, emit; cbn [snd out]. split.
  - now rewrite H1, app_assoc.
  - unfold count in *. rewrite filter_app, length_app, H2.
    cbn [filter]. now rewrite He.
Qed.

Lemma login_free_assign prefix v :
  preserves (login_free_since prefix) (assign_recentData v).
Proof. now intros w H. Qed.

Lemma login_free_fetch prefix :
  preserves (login_free_since prefix) (getRecentData client).
Proof.
  intros w H.
  apply (login_free_emit prefix EGetRecentData eq_refl) in H.
  unfold after, getRecentData, emit in *.
  now destruct (client (fetches w)).
Qed.

Ltac invariant_step :=
  first
    [ apply consistent_download
    | apply consistent_emit
    | apply login_free_assign
    | apply login_free_fetch
    | apply login_free_emit; reflexivity
    | apply preserves_ret
    | apply preserves_lift
    | apply preserves_read
    | apply preserves_bind; [|intros ?]
    | apply preserves_try; [|intros ?]
    | match goal with
      | |- preserves _ (if ?b then _ else _) => destruct b
      end ].



Lemma consistent_cycle i :
  preserves (consistent client) (cycle client clock wait i).
Proof.
  unfold cycle, schedule, log_debug, time_sleep.
  repeat invariant_step.
Qed.

Lemma loop_preserves P fuel :
  (forall i, preserves P (cycle client clock wait i)) ->
  forall i, preserves P (loop client clock wait fuel i).
Proof.
  intros Hc. induction fuel as [|fuel IH]; intros i; cbn [loop].
  - apply preserves_ret.
  - apply preserves_bind; [apply Hc|intros _; apply IH].
Qed.

Lemma main_started lr fuel :
  main lr client clock wait fuel initial =
  after_login client clock wait lr fuel started.
Proof. reflexivity. Qed.

Lemma consistent_rest lr fuel :
  preserves (consistent client) (after_login client clock wait lr fuel).
Proof.
  unfold after_login, print, syslog. destruct (logged_in lr).
  - apply preserves_bind; [|intros _; apply preserves_ret].
    apply loop_preserves, consistent_cycle.
  - repeat invariant_step.
Qed.


(** C1 (amended): after a fetch attempt [recentData] is the value that the
    attempt returned, whatever its status, and it is unchanged only when
    the attempt raised; so after any number of cycles [recentData] is the
    value returned by the latest call of [getRecentData] that returned. *)
Theorem store_follows_every_returned_fetch
  (login_result : login_outcome) (fuel : nat) (w : world) :
  recentData (after (attempts client 1) w) =
    match client (fetches w) with
    | Returned o => recent o
    | Raised _ => recentData w
    end /\
  consistent client
    (after (main login_result client clock wait fuel) initial).
Proof.
  split.
  - unfold after. destruct (client (fetches w)) as [o|msg] eqn:E.
    + destruct (is_ok o) eqn:Hok.
      * now rewrite (attempts_ok 0 w o E Hok).
      * now rewrite (attempts_retry 0 w o E Hok).
    + now rewrite (attempts_raised 0 w msg E).
  - unfold after. rewrite main_started.
    now apply (consistent_rest login_result fuel).
Qed.


(** *** The waiting time *)

(** The waiting time for a readable timestamp, as the code computes it. *)
Lemma tmoSeconds_eq (d : snapshot) t now :
  dict_get "lastConduitUpdateServerTime" d = Some (JInt t) ->
  tmoSeconds wait (Some d) now =
  inr (let tmo := py_int (inject_Z (Z.quot t 1000 + wait) - now) in
       if tmo <? 0 then RETRY_INTERVAL else tmo).
Proof.
  intros H. unfold tmoSeconds, update_time_seconds. rewrite H.
  cbv zeta. do 4 f_equal. unfold py_int.
  change (Qnum (inject_Z t / 1000)) with (t * 1).
  change (Qden (inject_Z t / 1000)) with 1000%positive.
  now rewrite Z.mul_1_r.
Qed.

(** With a clock that shows whole seconds the waiting time of the embedding
    is exactly the difference, unless that is negative. *)
Lemma tmoSeconds_whole_seconds (d : snapshot) t (now : Z) :
  dict_get "lastConduitUpdateServerTime" d = Some (JInt t) -> 0 <= t ->
  tmoSeconds wait (Some d) (inject_Z now) =
  inr (if t / 1000 + wait - now <? 0 then RETRY_INTERVAL
       else t / 1000 + wait - now).
Proof.
  intros H Ht. rewrite (tmoSeconds_eq d t _ H). cbv zeta.
  now rewrite py_int_difference, Z.quot_div_nonneg by lia.
Qed.

(** C2 (amended): for a snapshot whose [lastConduitUpdateServerTime] is
    [T] and a clock reading [now = n / 2^k], in the range where the float
    arithmetic of the script is exact ([0 <= T < 2^44 * 1000],
    [0 <= floor(T/1000) + wait < 2^33], [n < 2^53],
    [(floor(T/1000) + wait) * 2^k < 2^53], [k <= 52]), with
    [v = floor(T/1000) + wait - now], the waiting time is the retry
    interval of 120 seconds when [v <= -1], and [v] truncated toward zero
    otherwise (so it is [0] for [-1 < v < 0], and never negative); the
    process then sleeps the waiting time plus 10 seconds. *)
Theorem next_poll_delay (d : snapshot) (T n : Z) (k : N) :
  dict_get "lastConduitUpdateServerTime" d = Some (JInt T) ->
  in_exact_range T wait n k ->
  let now := clock_reading n k in
  let v := (inject_Z (T / 1000 + wait) - now)%Q in
  let delay := if Qle_bool v (-1) then RETRY_INTERVAL else py_int v in
  tmoSeconds wait (Some d) now = inr delay /\
  0 <= delay /\
  (forall i w, recentData w = Some d -> clock i = now ->
     schedule clock wait i w =
     (inr tt,
      {| recentData := recentData w; fetches := fetches w;
         out := out w ++ [EDebug (waiting_text delay);
                          ESleep (delay + 10)] |})).
Proof.
  intros H R. cbv zeta.
  assert (HT : 0 <= T) by (destruct R as [[HT _] _]; exact HT).
  generalize (clock_reading n k). intros now.
  assert (E : tmoSeconds wait (Some d) now =
              inr (if Qle_bool (inject_Z (T / 1000 + wait) - now) (-1)
                   then RETRY_INTERVAL
                   else py_int (inject_Z (T / 1000 + wait) - now))).
  { rewrite (tmoSeconds_eq d T now H). cbv zeta.
    rewrite Z.quot_div_nonneg by lia. f_equal.
    set (v := (inject_Z (T / 1000 + wait) - now)%Q).
    destruct (Qle_bool v (-1)) eqn:Hv.
    - apply Qle_bool_iff, py_int_negative, Z.ltb_lt in Hv. now rewrite Hv.
    - destruct (py_int v <? 0) eqn:Hp; [|reflexivity].
      apply Z.ltb_lt, py_int_negative, Qle_bool_iff in Hp. congruence. }
  split; [exact E|]. split.
  - set (v := (inject_Z (T / 1000 + wait) - now)%Q).
    destruct (Qle_bool v (-1)) eqn:Hv; [unfold RETRY_INTERVAL; lia|].
    destruct (Z.ltb_spec (py_int v) 0) as [Hp|Hp]; [|exact Hp].
    apply py_int_negative, Qle_bool_iff in Hp. congruence.
  - intros i w Hw Hi. apply schedule_sleeps. now rewrite Hw, Hi.
Qed.

End Poller.

(** ** The properties on concrete runs *)

Ltac exact_range :=
  unfold in_exact_range; repeat split; vm_compute;
  first [reflexivity | discriminate].

(** C1, as stated, fails: the first cycle stores the example snapshot; the
    next attempt is answered with status 403 and returns [None], and the
    stored snapshot is replaced by [None]. *)
Lemma failed_fetch_empties_the_store :
  let w1 := after (main login_accepted rejected_later example_clock 300 1)
              initial in
  let w2 := after (attempts rejected_later 1) w1 in
  recentData w1 = Some example_snapshot /\
  rejected_later (fetches w1) = Returned forbidden /\
  getLastResponseCode forbidden = HTTPStatus.FORBIDDEN /\
  getLastDataSuccess forbidden = false /\
  recentData w2 = None /\
  recentData w2 <> recentData w1.
Proof.
  vm_compute. repeat (split; [reflexivity|]). discriminate.
Qed.

(** C5, as stated, fails: after a first cycle that stored the example
    snapshot, a cycle whose two attempts are both answered with status 500
    leaves [None] in [recentData]. *)
Lemma exhausted_cycle_drops_the_snapshot :
  let w1 := after (main login_accepted failing_later example_clock 300 1)
              initial in
  let w2 := after (cycle failing_later example_clock 300 2) w1 in
  recentData w1 = Some example_snapshot /\
  failing_later (fetches w1) = Returned server_error /\
  failing_later (S (fetches w1)) = Returned server_error /\
  is_ok server_error = false /\
  fetches w2 = (fetches w1 + 2)%nat /\
  recentData w2 = None /\
  recentData w2 <> recentData w1.
Proof.
  vm_compute. repeat (split; [reflexivity|]). discriminate.
Qed.

(** C2, as stated, fails: with the timestamp 1700000000000 ms, an interval
    of 300 s and the clock at 1700000300.5 s, the value
    [floor(T/1000) + I - now] is [-1/2], which is negative, yet the waiting
    time is 0 seconds, not the retry interval, and the process sleeps 10
    seconds. *)
Lemma fractional_clock_waits_zero_seconds :
  let v := (inject_Z (1700000000000 / 1000 + 300) - half_past)%Q in
  (v == - (1 # 2))%Q /\ (v < 0)%Q /\
  tmoSeconds 300 (Some stamped_snapshot) half_past = inr 0 /\
  schedule (fun _ => half_past) 300 1
    {| recentData := Some stamped_snapshot; fetches := 1; out := [] |} =
  (inr tt,
   {| recentData := Some stamped_snapshot; fetches := 1;
      out := [EDebug "Waiting 0 seconds before next download!";
              ESleep 10] |}).
Proof.
  vm_compute. repeat (split; [reflexivity|]). reflexivity.
Qed.

(** The scheduling example of the specification: timestamp 1000000 ms,
    interval 300 s, clock at 1000300 s; the retry interval is used. *)
Lemma next_poll_delay_witness :
  dict_get "lastConduitUpdateServerTime" example_snapshot =
    Some (JInt 1000000) /\
  in_exact_range 1000000 300 1000300 0 /\
  tmoSeconds 300 (Some example_snapshot) 1000300 = inr 120 /\
  schedule example_clock 300 1
    {| recentData := Some example_snapshot; fetches := 1; out := [] |} =
  (inr tt,
   {| recentData := Some example_snapshot; fetches := 1;
      out := [EDebug "Waiting 120 seconds before next download!";
              ESleep 130] |}).
Proof.
  assert (H0 : in_exact_range 1000000 300 1000300 0) by exact_range.
  destruct (next_poll_delay example_clock 300 example_snapshot 1000000
              1000300 0 eq_refl H0) as [H1 [_ H3]].
  split; [reflexivity|]. split; [exact H0|]. split; [exact H1|].
  exact (H3 1%nat
           {| recentData := Some example_snapshot; fetches := 1; out := [] |}
           eq_refl eq_refl).
Defined.

Lemma exhausted_cycle_stores_last_answer_witness :
  always_failing (fetches initial) = Returned server_error /\
  getLastResponseCode server_error <> HTTPStatus.OK /\
  always_failing (S (fetches initial)) = Returned server_error /\
  recentData (after (download always_failing) initial) = None /\
  cycle always_failing example_clock 300 1 initial =
  (inr tt,
   {| recentData := None; fetches := 2;
      out := [EDebug "Starting download 1";
              EGetRecentData;
              EPrint "Error, response code: 500 Trying again in 1 sec";
              ESleep 1;
              EGetRecentData;
              EPrint "Error, response code: 500 Trying again in 1 sec";
              ESleep 1;
              EDebug "Waiting 120 seconds before next download!";
              ESleep 130] |}).
Proof.
  assert (H : getLastResponseCode server_error <> HTTPStatus.OK)
    by (vm_compute; discriminate).
  destruct (exhausted_cycle_stores_last_answer always_failing example_clock
              300 1 initial server_error server_error eq_refl H eq_refl H)
    as [H1 H2].
  split; [reflexivity|]. split; [exact H|]. split; [reflexivity|].
  split; [exact H1|]. exact (H2 eq_refl).
Defined.



(** * Further properties of the handler *)

Lemma strip_leading (c : ascii) (s : string) :
  strip c (String c s) = strip c s.
Proof. unfold strip. cbn [lstrip]. now rewrite Ascii.eqb_refl. Qed.

Lemma rstrip_trailing (c : ascii) (s : string) :
  rstrip c (s ++ String c "") = rstrip c s.
Proof.
  induction s as [|a s IH]; cbn [append rstrip].
  - now rewrite Ascii.eqb_refl.
  - now rewrite IH.
Qed.

Lemma lstrip_trailing (c : ascii) (s : string) :
  lstrip c (s ++ String c "") =
  match lstrip c s with
  | EmptyString => EmptyString
  | t => t ++ String c ""
  end.
Proof.
  induction s as [|a s IH]; cbn [append lstrip].
  - now rewrite Ascii.eqb_refl.
  - destruct (Ascii.eqb a c); [exact IH|reflexivity].
Qed.

Lemma strip_trailing (c : ascii) (s : string) :
  strip c (s ++ String c "") = strip c s.
Proof.
  unfold strip. rewrite lstrip_trailing.
  destruct (lstrip c s) as [|a t] eqn:E; [reflexivity|].
  apply rstrip_trailing.
Qed.

Lemma do_GET_strip rd path path' :
  strip "/" path = strip "/" path' -> do_GET rd path = do_GET rd path'.
Proof. unfold do_GET. now intros ->. Qed.

(** X1: one more slash in front of the request path, or behind it, never
    changes the response: the status, the headers and the body are the
    same. *)
Theorem surrounding_slashes_do_not_matter
  (rd : option snapshot) (path : string) :
  do_GET rd (String "/" path) = do_GET rd path /\
  do_GET rd (path ++ "/") = do_GET rd path.
Proof.
  split; apply do_GET_strip.
  - apply strip_leading.
  - apply strip_trailing.
Qed.

Lemma without_reserved_idempotent d :
  without_reserved (without_reserved d) = without_reserved d.
Proof.
  unfold without_reserved. rewrite filter_twice. apply filter_ext.
  intros kv. now destruct (is_reserved (fst kv)).
Qed.

Lemma filter_keys_NoDup (keep : string * json -> bool) (d : dict) :
  NoDup (keys d) -> NoDup (keys (filter keep d)).
Proof.
  unfold keys. induction d as [|[k v] d IH]; cbn [filter map fst]; intros H.
  - constructor.
  - inversion H as [|? ? Hnotin Hd]; subst.
    destruct (keep (k, v)); cbn [map fst]; [|now apply IH].
    constructor; [|now apply IH].
    intros Hin. apply Hnotin.
    apply in_map_iff in Hin as [[k2 v2] [Hk Hin]].
    apply filter_In in Hin as [Hin _].
    apply in_map_iff. now exists (k2, v2).
Qed.

(** X2: the lite view is stable: stripping the stripped dictionary changes
    nothing, so the full view of the stripped dictionary is the lite view of
    the original; it has no more members than the original, and its keys
    are distinct when those of the original are. *)
Theorem lite_view_is_stable (d : snapshot) :
  let lite := without_reserved d in
  get_essential_data (Some lite) = get_essential_data (Some d) /\
  do_GET (Some lite) "/carelink" = do_GET (Some d) "/carelink/nohistory" /\
  (List.length lite <= List.length d)%nat /\
  (NoDup (keys d) -> NoDup (keys lite)).
Proof.
  cbv zeta.
  assert (E : get_essential_data (Some (without_reserved d)) =
              get_essential_data (Some d)).
  { now rewrite !get_essential_data_filter, without_reserved_idempotent. }
  split; [exact E|]. split; [|split].
  - rewrite (do_GET_base (Some (without_reserved d)) "/carelink")
      by reflexivity.
    rewrite (do_GET_nohistory (Some d) "/carelink/nohistory") by reflexivity.
    now rewrite get_essential_data_filter.
  - apply filter_length_le.
  - apply filter_keys_NoDup.
Qed.

(** X3: a member with a reserved key, wherever it stands in the stored
    dictionary and whatever its value, has no influence on the response at
    [/carelink/nohistory]. *)
Theorem reserved_members_do_not_reach_the_lite_view
  (d1 d2 : snapshot) (k : string) (v : json) (path : string) :
  is_reserved k = true ->
  strip "/" path = "carelink/nohistory" ->
  do_GET (Some (d1 ++ (k, v) :: d2)%list) path =
  do_GET (Some (d1 ++ d2)%list) path.
Proof.
  intros Hk Hp.
  rewrite !(do_GET_nohistory _ path) by exact Hp.
  rewrite !get_essential_data_filter. unfold without_reserved.
  rewrite !filter_app. cbn [filter fst]. now rewrite Hk.
Qed.

Lemma reserved_members_do_not_reach_the_lite_view_witness :
  is_reserved "sgs" = true /\
  strip "/" "/carelink/nohistory/" = "carelink/nohistory" /\
  do_GET (Some ([("lastSG", JInt 120)] ++
                ("sgs", JArr [JInt 110; JInt 114]) :: [("name", JStr "x")])%list)
    "/carelink/nohistory/" =
  do_GET (Some ([("lastSG", JInt 120)] ++ [("name", JStr "x")])%list)
    "/carelink/nohistory/".
Proof.
  split; [reflexivity|]. split; [reflexivity|].
  apply (reserved_members_do_not_reach_the_lite_view
           [("lastSG", JInt 120)] [("name", JStr "x")] "sgs"
           (JArr [JInt 110; JInt 114]) "/carelink/nohistory/");
    reflexivity.
Defined.

Lemma dict_mem_In k v (d : dict) : In (k, v) d -> dict_mem k d = true.
Proof.
  unfold dict_mem, keys. intros H. apply existsb_exists. exists k.
  split; [|apply String.eqb_refl].
  apply in_map_iff. now exists (k, v).
Qed.

(** X4: when the stored dictionary has none of the four reserved keys, the
    two resources answer with the same response. *)
Theorem plain_snapshot_is_served_alike (d : snapshot) :
  (forall k, is_reserved k = true -> dict_mem k d = false) ->
  do_GET (Some d) "/carelink/nohistory" = do_GET (Some d) "/carelink".
Proof.
  intros H.
  rewrite (do_GET_base (Some d) "/carelink") by reflexivity.
  rewrite (do_GET_nohistory (Some d) "/carelink/nohistory") by reflexivity.
  rewrite get_essential_data_filter. cbn [json_of_store]. do 3 f_equal.
  unfold without_reserved.
  apply forallb_filter_id. apply forallb_forall. intros [k v] Hin.
  cbn [fst]. destruct (is_reserved k) eqn:E; [|reflexivity].
  apply H in E. now rewrite (dict_mem_In k v d Hin) in E.
Qed.

Lemma plain_snapshot_is_served_alike_witness :
  (forall k, is_reserved k = true -> dict_mem k plain_snapshot = false) /\
  do_GET (Some plain_snapshot) "/carelink/nohistory" =
  do_GET (Some plain_snapshot) "/carelink".
Proof.
  assert (H : forall k, is_reserved k = true ->
                        dict_mem k plain_snapshot = false).
  { intros k Hk. unfold is_reserved, reserved_keys in Hk.
    cbn [existsb] in Hk. rewrite !orb_true_iff, !String.eqb_eq in Hk.
    destruct Hk as [->|[->|[->|[->|Hf]]]]; try reflexivity; discriminate. }
  split; [exact H|].
  exact (plain_snapshot_is_served_alike plain_snapshot H).
Defined.


(** * Further properties of the poller *)

Lemma py_int_le (x : Q) (n : Z) : (x <= inject_Z n)%Q -> py_int x <= n.
Proof.
  unfold py_int, Qle. cbn [inject_Z Qnum Qden]. intros H.
  assert (Hd : 0 < Z.pos (Qden x)) by lia.
  revert H Hd. generalize (Z.pos (Qden x)) (Qnum x). intros q p H Hq.
  Zify.zify. Z.to_euclidean_division_equations. nia.
Qed.

Lemma after_bind {A B} (m : M A) (k : A -> M B) (w : world) :
  after (bind m k) w =
  match fst (m w) with
  | inl _ => after m w
  | inr a => after (k a) (after m w)
  end.
Proof. unfold after, bind. now destruct (m w) as [[e|a] w1]. Qed.

Lemma fst_bind {A B} (m : M A) (k : A -> M B) (w : world) :
  fst (bind m k w) =
  match fst (m w) with
  | inl e => inl e
  | inr a => fst (k a (after m w))
  end.
Proof. unfold after, bind. now destruct (m w) as [[e|a] w1]. Qed.

Lemma sleeps_ok_emit e : sleep_ok e -> preserves sleeps_ok (emit e).
Proof.
  intros He w H. unfold sleeps_ok, after, emit in *. cbn [snd out].
  apply Forall_app. split; [exact H|]. now constructor.
Qed.

Section Runs.

Variable client : nat -> fetch_result.
Variable clock : nat -> Q.
Variable wait : Z.

(** *** The waiting time *)

Lemma tmoSeconds_nonneg rd now tmo :
  tmoSeconds wait rd now = inr tmo -> 0 <= tmo.
Proof.
  unfold tmoSeconds. destruct rd as [d|].
  - destruct (update_time_seconds d) as [e|q]; [discriminate|].
    cbv zeta. intros H. injection H as <-.
    destruct (Z.ltb_spec (py_int (inject_Z (py_int q + wait) - now)) 0);
      [unfold RETRY_INTERVAL; lia|assumption].
  - intros H. injection H as <-. unfold RETRY_INTERVAL. lia.
Qed.

Lemma tmoSeconds_error rd now e :
  tmoSeconds wait rd now = inl e -> is_scheduling_error e.
Proof.
  unfold tmoSeconds, update_time_seconds. destruct rd as [d|]; [|discriminate].
  destruct (dict_get "lastConduitUpdateServerTime" d) as [[| | | | |]|];
    intros H; try discriminate; injection H as <-; exact I || reflexivity.
Qed.

Lemma tmoSeconds_defined rd now :
  has_timestamp rd = true -> exists tmo, tmoSeconds wait rd now = inr tmo.
Proof.
  unfold has_timestamp, tmoSeconds, update_time_seconds.
  destruct rd as [d|]; [|now eexists].
  destruct (dict_get "lastConduitUpdateServerTime" d) as [[| | | | |]|];
    intros H; try discriminate; now eexists.
Qed.

(** X5: whenever a waiting time is computed it is not negative, so the
    sleep before the next cycle lasts at least ten seconds; and in the range
    where the float arithmetic is exact, when the timestamp [T] of the
    stored snapshot is not ahead of the clock reading [n / 2^k], the waiting
    time is at most the larger of the configured interval and the retry
    interval. *)
Theorem waiting_time_bounds (rd : option snapshot) (now : Q) (tmo : Z) :
  tmoSeconds wait rd now = inr tmo ->
  0 <= tmo /\
  (forall d T n k, rd = Some d ->
     dict_get "lastConduitUpdateServerTime" d = Some (JInt T) ->
     in_exact_range T wait n k -> now = clock_reading n k ->
     (inject_Z (T / 1000) <= now)%Q ->
     tmo <= Z.max wait RETRY_INTERVAL).
Proof.
  intros H. split; [exact (tmoSeconds_nonneg rd now tmo H)|].
  intros d T n k -> Hd R _ Hnow.
  assert (HT : 0 <= T) by (destruct R as [[HT _] _]; exact HT).
  rewrite (tmoSeconds_eq wait d T now Hd) in H. cbv zeta in H.
  injection H as <-.
  rewrite Z.quot_div_nonneg by lia.
  destruct (Z.ltb_spec (py_int (inject_Z (T / 1000 + wait) - now)) 0)
    as [_|_]; [lia|].
  apply Z.le_trans with wait; [|lia].
  apply py_int_le.
  rewrite inject_Z_plus.
  apply Qplus_le_l with (z := now).
  setoid_replace (inject_Z (T / 1000) + inject_Z wait - now + now)%Q
    with (inject_Z (T / 1000) + inject_Z wait)%Q by ring.
  rewrite (Qplus_comm (inject_Z wait) now).
  now apply Qplus_le_l.
Qed.

(** *** What a cycle returns *)

Lemma cycle_result i w :
  cycle client clock wait i w =
  let w1 := after (download client)
              (after (log_debug (starting_text i)) w) in
  match tmoSeconds wait (recentData w1) (clock i) with
  | inl e => (inl e, w1)
  | inr tmo =>
      (inr tt,
       {| recentData := recentData w1; fetches := fetches w1;
          out := out w1 ++ [EDebug (waiting_text tmo); ESleep (tmo + 10)] |})
  end.
Proof.
  rewrite cycle_eq. cbv zeta.
  destruct (tmoSeconds wait _ (clock i)) as [e|tmo] eqn:E.
  - now apply schedule_raises.
  - now apply schedule_sleeps.
Qed.

Lemma download_fetches w :
  (fetches w + 1 <= fetches (after (download client) w) <= fetches w + 2)%nat.
Proof.
  unfold after. rewrite download_eq. cbn [snd].
  destruct (client (fetches w)) as [o|msg]; [|cbn; lia].
  destruct (is_ok o); cbn; lia.
Qed.

Lemma cycle_fetches i w :
  (fetches w + 1 <= fetches (after (cycle client clock wait i) w)
   <= fetches w + 2)%nat.
Proof.
  unfold after at 1 2. rewrite cycle_result. cbv zeta.
  pose proof (download_fetches (after (log_debug (starting_text i)) w)) as H.
  change (fetches (after (log_debug (starting_text i)) w))
    with (fetches w) in H.
  now destruct (tmoSeconds wait _ (clock i)).
Qed.

(** X6: a run of [fuel] cycles calls [getRecentData] at most [2 * fuel]
    times, the count never decreases, and as long as the loop is still
    running every cycle has made at least one call. *)
Theorem fetches_per_run (fuel i : nat) (w : world) :
  let r := loop client clock wait fuel i w in
  (fetches w <= fetches (snd r) <= fetches w + 2 * fuel)%nat /\
  (fst r = inr tt -> fetches w + fuel <= fetches (snd r))%nat.
Proof.
  cbv zeta. revert i w. induction fuel as [|fuel IH]; intros i w.
  - cbn. lia.
  - cbn [loop].
    change (snd (bind (cycle client clock wait (S i))
                   (fun _ => loop client clock wait fuel (S i)) w))
      with (after (bind (cycle client clock wait (S i))
                     (fun _ => loop client clock wait fuel (S i))) w).
    rewrite after_bind, fst_bind.
    pose proof (cycle_fetches (S i) w) as Hc.
    destruct (fst (cycle client clock wait (S i) w)) as [e|[]].
    + split; [lia|discriminate].
    + specialize (IH (S i) (after (cycle client clock wait (S i)) w)).
      destruct IH as [IH1 IH2]. unfold after in *. split; [lia|].
      intros H. specialize (IH2 H). lia.
Qed.

(** X7: when the value stored after the download loop is a dictionary
    without the key [lastConduitUpdateServerTime], the [KeyError] of the
    scheduling code is not caught: the cycle logs no waiting time, does not
    sleep, and the endless loop ends with that exception. *)
Theorem missing_timestamp_ends_the_process
  (fuel i : nat) (w : world) (d : snapshot) :
  let w1 := after (download client)
              (after (log_debug (starting_text (S i))) w) in
  recentData w1 = Some d ->
  dict_get "lastConduitUpdateServerTime" d = None ->
  cycle client clock wait (S i) w =
    (inl (KeyError "lastConduitUpdateServerTime"), w1) /\
  loop client clock wait (S fuel) i w =
    (inl (KeyError "lastConduitUpdateServerTime"), w1).
Proof.
  cbv zeta. intros Hrd Hd.
  assert (E : cycle client clock wait (S i) w =
              (inl (KeyError "lastConduitUpdateServerTime"),
               after (download client)
                 (after (log_debug (starting_text (S i))) w))).
  { rewrite cycle_result. cbv zeta. rewrite Hrd.
    unfold tmoSeconds, update_time_seconds. now rewrite Hd. }
  split; [exact E|].
  cbn [loop]. unfold bind. now rewrite E.
Qed.

Lemma loop_error fuel i w e :
  fst (loop client clock wait fuel i w) = inl e -> is_scheduling_error e.
Proof.
  revert i w. induction fuel as [|fuel IH]; intros i w; [discriminate|].
  cbn [loop]. rewrite fst_bind.
  destruct (fst (cycle client clock wait (S i) w)) as [e'|[]] eqn:E.
  - intros H. injection H as <-.
    rewrite cycle_result in E. cbv zeta in E.
    destruct (tmoSeconds wait _ (clock (S i))) as [e2|tmo] eqn:Et;
      [|discriminate].
    cbn [fst] in E. injection E as <-.
    exact (tmoSeconds_error _ _ _ Et).
  - apply IH.
Qed.

(** X8: an exception raised by the client never ends the script: when the
    script ends with an exception, it is not one that [getRecentData]
    raised ([Raised] stands for an exception of class [Exception], which
    the [except] clause catches). *)
Theorem client_exceptions_never_end_the_script
  (lr : login_outcome) (fuel : nat) (e : exn) (w' : world) :
  main lr client clock wait fuel initial = (inl e, w') ->
  forall msg, e <> ClientError msg.
Proof.
  intros H msg ->. revert H.
  change (main lr client clock wait fuel initial = (inl (ClientError msg), w')
          -> is_scheduling_error (ClientError msg)).
  generalize (ClientError msg). intros e.
  rewrite main_started. unfold after_login. intros H.
  apply (f_equal fst) in H. cbn [fst] in H.
  destruct (logged_in lr).
  - rewrite fst_bind in H.
    destruct (fst (loop client clock wait fuel 0 started)) as [e'|[]] eqn:E;
      [|discriminate].
    injection H as <-. exact (loop_error _ _ _ _ E).
  - discriminate.
Qed.

(** X9: an exception raised by the first call of a cycle is caught: the
    download loop returns normally after one call, the exception is printed
    and written to the system log, and [recentData] is the same after the
    cycle as before it. *)
Theorem client_exception_is_caught (i : nat) (w : world) (msg : string) :
  client (fetches w) = Raised msg ->
  download client w =
  (inr tt,
   {| recentData := recentData w; fetches := S (fetches w);
      out := out w ++ [EGetRecentData; EPrint msg;
                       ESyslog LOG_ERR ("ERROR: " ++ msg)] |}) /\
  recentData (after (cycle client clock wait i) w) = recentData w.
Proof.
  intros H. split.
  - rewrite download_eq. unfold download_events, except_notes.
    now rewrite H.
  - unfold after at 1. rewrite cycle_result. cbv zeta.
    assert (E : recentData (after (download client)
                  (after (log_debug (starting_text i)) w)) = recentData w).
    { unfold after at 1. rewrite download_eq. cbn [snd].
      change (fetches (after (log_debug (starting_text i)) w))
        with (fetches w).
      now rewrite H. }
    now destruct (tmoSeconds wait _ (clock i)).
Qed.

(** X10: a cycle whose first call answers OK with a snapshot stamped [T],
    at a clock that shows the whole second [now], in the range where the
    float arithmetic is exact ([0 <= T < 2^44 * 1000],
    [0 <= floor(T/1000) + wait < 2^33], [0 <= now < 2^53]): one call is
    made, no one-second pause, the snapshot is stored, and the process
    sleeps [floor(T/1000) + wait - now + 10] seconds, or 130 when that
    difference is negative. *)
Theorem successful_cycle
  (i : nat) (w : world) (o : fetch_outcome) (d : snapshot) (T now : Z) :
  client (fetches w) = Returned o ->
  getLastResponseCode o = HTTPStatus.OK ->
  recent o = Some d ->
  dict_get "lastConduitUpdateServerTime" d = Some (JInt T) ->
  in_exact_range T wait now 0 ->
  clock i = inject_Z now ->
  let delay := if T / 1000 + wait - now <? 0 then RETRY_INTERVAL
               else T / 1000 + wait - now in
  cycle client clock wait i w =
  (inr tt,
   {| recentData := Some d; fetches := S (fetches w);
      out := out w ++ [EDebug (starting_text i); EGetRecentData; ok_note o;
                       EDebug (waiting_text delay); ESleep (delay + 10)] |}).
Proof.
  intros E Hok Hd Ht R Hclock. cbv zeta.
  assert (HT : 0 <= T) by (destruct R as [[HT _] _]; exact HT).
  assert (Hok' : is_ok o = true) by (unfold is_ok; rewrite Hok; reflexivity).
  assert (D : after (download client)
                (after (log_debug (starting_text i)) w) =
              {| recentData := Some d; fetches := S (fetches w);
                 out := out w ++ [EDebug (starting_text i);
                                  EGetRecentData; ok_note o] |}).
  { unfold after at 1. rewrite download_eq. cbn [snd].
    change (fetches (after (log_debug (starting_text i)) w))
      with (fetches w).
    rewrite E, Hok', Hd. unfold download_events. rewrite E, Hok'.
    cbn [after log_debug emit snd out]. now rewrite <- app_assoc. }
  rewrite cycle_result. cbv zeta. rewrite D. cbn [recentData fetches out].
  rewrite Hclock, (tmoSeconds_whole_seconds wait d T now Ht HT).
  now rewrite <- app_assoc.
Qed.

(** X13: an answer with status OK whose data is marked unsuccessful ends
    the attempts of the cycle after one call; its value is stored all the
    same, and what is printed is the error message of the client alone when
    there is one, and the text [Data exception: no details available]
    otherwise. *)
Theorem data_error_is_stored_and_reported (w : world) (o : fetch_outcome) :
  client (fetches w) = Returned o ->
  getLastResponseCode o = HTTPStatus.OK ->
  getLastDataSuccess o = false ->
  download client w =
  (inr tt,
   {| recentData := recent o; fetches := S (fetches w);
      out := out w ++
             [EGetRecentData;
              EPrint match getLastErrorMessage o with
                     | Some m => m
                     | None => "Data exception: no details available"
                     end] |}).
Proof.
  intros E Hok Hs.
  assert (Hok' : is_ok o = true) by (unfold is_ok; rewrite Hok; reflexivity).
  rewrite download_eq, E, Hok'. unfold download_events.
  rewrite E, Hok'. unfold ok_note. rewrite Hs.
  now destruct (getLastErrorMessage o).
Qed.

(** *** Sleeping times *)

Lemma sleeps_ok_fetch : preserves sleeps_ok (getRecentData client).
Proof.
  intros w H. apply (sleeps_ok_emit EGetRecentData I) in H.
  unfold after, getRecentData, emit in *.
  now destruct (client (fetches w)).
Qed.

Lemma sleeps_ok_assign v : preserves sleeps_ok (assign_recentData v).
Proof. now intros w H. Qed.

Lemma sleeps_ok_attempts n : preserves sleeps_ok (attempts client n).
Proof.
  induction n as [|n IH]; cbn [attempts]; [apply preserves_ret|].
  unfold log_debug, print, time_sleep.
  apply preserves_bind; [apply sleeps_ok_fetch|intros o].
  apply preserves_bind; [apply sleeps_ok_assign|intros _].
  destruct (getLastResponseCode o =? HTTPStatus.OK).
  - destruct (getLastDataSuccess o); apply sleeps_ok_emit; exact I.
  - destruct (getLastResponseCode o =? HTTPStatus.FORBIDDEN);
      (apply preserves_bind; [apply sleeps_ok_emit; exact I|intros _];
       apply preserves_bind; [apply sleeps_ok_emit; now left|intros _];
       exact IH).
Qed.

Lemma sleeps_ok_download : preserves sleeps_ok (download client).
Proof.
  apply preserves_try; [apply sleeps_ok_attempts|intros e].
  unfold print, syslog.
  apply preserves_bind; [|intros _]; apply sleeps_ok_emit; exact I.
Qed.

Lemma sleeps_ok_cycle i : preserves sleeps_ok (cycle client clock wait i).
Proof.
  intros w H. unfold after. rewrite cycle_result. cbv zeta.
  assert (H1 : sleeps_ok (after (download client)
                            (after (log_debug (starting_text i)) w))).
  { apply sleeps_ok_download.
    now apply (sleeps_ok_emit (EDebug (starting_text i)) I). }
  destruct (tmoSeconds wait _ (clock i)) as [e|tmo] eqn:E; [exact H1|].
  cbn [snd]. unfold sleeps_ok in *. cbn [out].
  apply Forall_app. split; [exact H1|].
  constructor; [exact I|]. constructor; [|constructor].
  right. pose proof (tmoSeconds_nonneg _ _ _ E). lia.
Qed.

(** X11: in every run, whatever the client, the clock and the interval,
    each call of [time.sleep] asks for exactly one second or for at least
    ten: the script never sleeps a negative time and never polls without a
    pause. *)
Theorem every_sleep_is_positive (lr : login_outcome) (fuel : nat) :
  sleeps_ok (after (main lr client clock wait fuel) initial).
Proof.
  unfold after. rewrite main_started.
  assert (H0 : sleeps_ok started) by (repeat constructor).
  assert (X : preserves sleeps_ok (after_login client clock wait lr fuel)).
  { unfold after_login, print, syslog. destruct (logged_in lr).
    - apply preserves_bind; [|intros _; apply preserves_ret].
      apply loop_preserves, sleeps_ok_cycle.
    - repeat (apply preserves_bind; [apply sleeps_ok_emit; exact I|intros _]).
      apply preserves_ret. }
  exact (X started H0).
Qed.

End Runs.


(** *** Runs that never end *)

Section Timestamped_answers.

Variable client : nat -> fetch_result.
Variable clock : nat -> Q.
Variable wait : Z.

(** Every value the client returns is [None] or carries a numeric
    timestamp. *)
Hypothesis answers_have_timestamps :
  forall k o, client k = Returned o -> has_timestamp (recent o) = true.

Lemma download_keeps_timestamp w :
  has_timestamp (recentData w) = true ->
  has_timestamp (recentData (after (download client) w)) = true.
Proof.
  intros H. unfold after. rewrite download_eq. cbn [snd].
  destruct (client (fetches w)) as [o|msg] eqn:E; [|exact H].
  destruct (is_ok o); cbn [recentData]; [eauto|].
  destruct (client (S (fetches w))) as [o2|msg2] eqn:E2; eauto.
Qed.

Lemma cycle_goes_on i w :
  has_timestamp (recentData w) = true ->
  fst (cycle client clock wait i w) = inr tt /\
  has_timestamp (recentData (after (cycle client clock wait i) w)) = true.
Proof.
  intros H. unfold after at 1. rewrite cycle_result. cbv zeta.
  assert (H1 : has_timestamp (recentData (after (download client)
                 (after (log_debug (starting_text i)) w))) = true)
    by now apply download_keeps_timestamp.
  destruct (tmoSeconds_defined wait _ (clock i) H1) as [tmo E].
  rewrite E. now split.
Qed.

Lemma loop_goes_on fuel i w :
  has_timestamp (recentData w) = true ->
  fst (loop client clock wait fuel i w) = inr tt.
Proof.
  revert i w. induction fuel as [|fuel IH]; intros i w H; [reflexivity|].
  cbn [loop]. rewrite fst_bind.
  destruct (cycle_goes_on (S i) w H) as [H1 H2]. rewrite H1.
  now apply IH.
Qed.

(** In the embedding, whose arithmetic never overflows, a numeric timestamp
    is enough to go on. *)
Lemma main_goes_on (lr : login_outcome) (fuel : nat) :
  fst (main lr client clock wait fuel initial) =
  inr (if logged_in lr then Looping else Finished).
Proof.
  rewrite main_started. unfold after_login. destruct (logged_in lr).
  - rewrite fst_bind. now rewrite (loop_goes_on fuel 0 started eq_refl).
  - reflexivity.
Qed.

End Timestamped_answers.

Lemma timestamp_in_range_numeric wait rd :
  timestamp_in_range wait rd = true -> has_timestamp rd = true.
Proof.
  unfold timestamp_in_range, has_timestamp. destruct rd as [d|]; [|easy].
  now destruct (dict_get "lastConduitUpdateServerTime" d) as [[| | | | |]|].
Qed.

(** X12: when the clock is never negative and every value that the client
    returns is [None] or a dictionary whose [lastConduitUpdateServerTime]
    is in range (a boolean, or an integer [T] with [0 <= T < 2^44 * 1000]
    and [floor(T/1000) + wait] within [2^33] of zero), no exception ever
    ends the script: after a successful login it is still in its loop after
    any number of cycles, whatever the statuses and the exceptions of the
    client. *)
Theorem timestamped_answers_keep_the_loop_running
  (client : nat -> fetch_result) (clock : nat -> Q) (wait : Z)
  (lr : login_outcome) (fuel : nat) :
  (forall k o, client k = Returned o ->
               timestamp_in_range wait (recent o) = true) ->
  (forall i, (0 <= clock i)%Q) ->
  fst (main lr client clock wait fuel initial) =
  inr (if logged_in lr then Looping else Finished).
Proof.
  intros H _. apply main_goes_on.
  intros k o E. apply (timestamp_in_range_numeric wait), (H k o E).
Qed.

(** ** The further properties on concrete runs *)

Lemma waiting_time_bounds_witness :
  tmoSeconds 300 (Some example_snapshot) (2401 # 2) = inr 99 /\
  0 <= 99 /\
  99 <= Z.max 300 RETRY_INTERVAL.
Proof.
  assert (H : tmoSeconds 300 (Some example_snapshot) (2401 # 2) = inr 99)
    by reflexivity.
  destruct (waiting_time_bounds 300 (Some example_snapshot) (2401 # 2) 99 H)
    as [H1 H2].
  split; [exact H|]. split; [exact H1|].
  apply (H2 example_snapshot 1000000 2401 1%N eq_refl eq_refl).
  - exact_range.
  - reflexivity.
  - vm_compute. discriminate.
Defined.

Lemma missing_timestamp_ends_the_process_witness :
  recentData (after (download always_untimed)
                (after (log_debug (starting_text 1)) started)) =
    Some untimed_snapshot /\
  dict_get "lastConduitUpdateServerTime" untimed_snapshot = None /\
  loop always_untimed example_clock 300 3 0 started =
  (inl (KeyError "lastConduitUpdateServerTime"),
   {| recentData := Some untimed_snapshot; fetches := 1;
      out := startup_events ++
             [EDebug "Starting download 1"; EGetRecentData;
              EDebug "New data received"] |}).
Proof.
  split; [reflexivity|]. split; [reflexivity|].
  exact (proj2 (missing_timestamp_ends_the_process always_untimed
                  example_clock 300 2 0 started untimed_snapshot
                  eq_refl eq_refl)).
Defined.

Lemma client_exceptions_never_end_the_script_witness :
  main login_accepted always_untimed example_clock 300 2 initial =
  (inl (KeyError "lastConduitUpdateServerTime"),
   after (main login_accepted always_untimed example_clock 300 2) initial) /\
  (forall msg, KeyError "lastConduitUpdateServerTime" <> ClientError msg).
Proof.
  split; [reflexivity|].
  exact (client_exceptions_never_end_the_script always_untimed example_clock
           300 login_accepted 2 _ _ eq_refl).
Defined.

Lemma client_exception_is_caught_witness :
  unreachable 1 = Raised "Connection refused" /\
  download unreachable
    {| recentData := Some example_snapshot; fetches := 1; out := [] |} =
  (inr tt,
   {| recentData := Some example_snapshot; fetches := 2;
      out := [EGetRecentData; EPrint "Connection refused";
              ESyslog LOG_ERR "ERROR: Connection refused"] |}) /\
  recentData
    (after (cycle unreachable example_clock 300 2)
       {| recentData := Some example_snapshot; fetches := 1; out := [] |}) =
  Some example_snapshot.
Proof.
  split; [reflexivity|].
  exact (client_exception_is_caught unreachable example_clock 300 2
           {| recentData := Some example_snapshot; fetches := 1; out := [] |}
           "Connection refused" eq_refl).
Defined.

Lemma successful_cycle_witness :
  rejected_later (fetches initial) = Returned fresh /\
  getLastResponseCode fresh = HTTPStatus.OK /\
  recent fresh = Some example_snapshot /\
  dict_get "lastConduitUpdateServerTime" example_snapshot =
    Some (JInt 1000000) /\
  in_exact_range 1000000 300 1100 0 /\
  cycle rejected_later (fun _ => inject_Z 1100) 300 1 initial =
  (inr tt,
   {| recentData := Some example_snapshot; fetches := 1;
      out := [EDebug "Starting download 1"; EGetRecentData;
              EDebug "New data received";
              EDebug "Waiting 200 seconds before next download!";
              ESleep 210] |}).
Proof.
  assert (HT : in_exact_range 1000000 300 1100 0) by exact_range.
  repeat (split; [first [reflexivity | exact HT]|]).
  exact (successful_cycle rejected_later (fun _ => inject_Z 1100) 300 1
           initial fresh example_snapshot 1000000 1100
           eq_refl eq_refl eq_refl eq_refl HT eq_refl).
Defined.

Lemma timestamped_answers_keep_the_loop_running_witness :
  (forall k o, rejected_later k = Returned o ->
               timestamp_in_range 300 (recent o) = true) /\
  (forall i, (0 <= example_clock i)%Q) /\
  fst (main login_accepted rejected_later example_clock 300 4 initial) =
  inr Looping.
Proof.
  assert (H : forall k o, rejected_later k = Returned o ->
                          timestamp_in_range 300 (recent o) = true).
  { intros [|k] o E; injection E as <-; reflexivity. }
  assert (Hc : forall i, (0 <= example_clock i)%Q).
  { intros i. vm_compute. discriminate. }
  split; [exact H|]. split; [exact Hc|].
  exact (timestamped_answers_keep_the_loop_running rejected_later
           example_clock 300 login_accepted 4 H Hc).
Defined.

Lemma data_error_is_stored_and_reported_witness :
  getLastResponseCode
    {| recent := Some untimed_snapshot; getLastResponseCode := 200;
       getLastDataSuccess := false;
       getLastErrorMessage := Some "No data" |} = HTTPStatus.OK /\
  download
    (fun _ => Returned
       {| recent := Some untimed_snapshot; getLastResponseCode := 200;
          getLastDataSuccess := false;
          getLastErrorMessage := Some "No data" |})
    {| recentData := Some example_snapshot; fetches := 1; out := [] |} =
  (inr tt,
   {| recentData := Some untimed_snapshot; fetches := 2;
      out := [EGetRecentData; EPrint "No data"] |}).
Proof.
  split; [reflexivity|].
  exact (data_error_is_stored_and_reported
           (fun _ => Returned
              {| recent := Some untimed_snapshot; getLastResponseCode := 200;
                 getLastDataSuccess := false;
                 getLastErrorMessage := Some "No data" |})
           {| recentData := Some example_snapshot; fetches := 1; out := [] |}
           _ eq_refl eq_refl eq_refl).
Defined.
